(** * Coordinator scripts: stub handlers, agent wiring and request runners

    A shallow embedding of [src/chapter1/chapter01.py] and
    [src/chapter2/agent.py].  Both scripts define stub tool functions, wire
    them into agents, and define a request runner that creates a session,
    iterates over the events of [runner.run] and returns a string.

    Python strings are modelled by [string]; [print] appends one entry to
    the [stdout] of an explicit world; exceptions are an outcome of a
    computation, and [try ... except Exception] inspects the class of the
    raised object. *)

From Stdlib Require Import String Ascii List Bool Arith Lia.
Import ListNotations.
Local Open Scope string_scope.

(** ** The fragment of Python the scripts rely on *)
Module Py.

(** What a function of the scripts can hand back to its caller: the
    runners are un-annotated and return either a [str] or, by falling off
    the end of the body, [None]. *)
Inductive value : Type :=
| PyNone
| PyStr (s : string).

(** A raised object.  [is_Exception] tells whether its class derives from
    [Exception] (as opposed to [BaseException] only, e.g.
    [KeyboardInterrupt]); [exc_str] is what [str(e)] / an f-string
    placeholder renders. *)
Record BaseException : Type := mkExc {
  is_Exception : bool;
  exc_str : string
}.

(** The ambient state a call can touch: the lines written by [print], the
    random source read by [uuid.uuid4], and how many events have been
    requested from event generators so far. *)
Record world : Type := mkWorld {
  stdout : list string;
  uuid_source : nat -> string;
  uuid_drawn : nat;
  events_pulled : nat
}.

Inductive result (A : Type) : Type :=
| Ok (a : A)
| Raised (x : BaseException).
Arguments Ok {A} a.
Arguments Raised {A} x.

(** Computations: state passing over [world], with exceptions. *)
Definition M (A : Type) : Type := world -> result A * world.

Definition ret {A} (a : A) : M A := fun w => (Ok a, w).

Definition raise {A} (x : BaseException) : M A := fun w => (Raised x, w).

Definition bind {A B} (m : M A) (k : A -> M B) : M B :=
  fun w =>
    match m w with
    | (Ok a, w') => k a w'
    | (Raised x, w') => (Raised x, w')
    end.

(** [try: m  except Exception as e: handler e]: objects whose class does
    not derive from [Exception] pass through. *)
Definition try_except_Exception {A} (m : M A) (handler : BaseException -> M A) : M A :=
  fun w =>
    match m w with
    | (Ok a, w') => (Ok a, w')
    | (Raised x, w') =>
        if is_Exception x then handler x w' else (Raised x, w')
    end.

Definition print (line : string) : M unit :=
  fun w => (Ok tt, mkWorld (stdout w ++ [line]) (uuid_source w) (uuid_drawn w) (events_pulled w)).

(** [str(uuid.uuid4())] *)
Definition uuid4_str : M string :=
  fun w => (Ok (uuid_source w (uuid_drawn w)),
            mkWorld (stdout w) (uuid_source w) (S (uuid_drawn w)) (events_pulled w)).

Definition pulled_one : M unit :=
  fun w => (Ok tt, mkWorld (stdout w) (uuid_source w) (uuid_drawn w) (S (events_pulled w))).

(** The character written [\n] in a Python literal. *)
Definition nl : string := String (ascii_of_nat 10) EmptyString.

(** Truthiness of an [Optional[str]]. *)
Definition truthy_str (o : option string) : bool :=
  match o with
  | Some (String _ _) => true
  | _ => false
  end.

(** A generator of [A]s, as seen by its consumer: each request either
    finds it exhausted, obtains a value, or has the generator raise. *)
Inductive generator (A : Type) : Type :=
| Exhausted
| Yields (a : A) (rest : generator A)
| Raises (x : BaseException).
Arguments Exhausted {A}.
Arguments Yields {A} a rest.
Arguments Raises {A} x.

(** How one execution of a loop body ends. *)
Inductive step (S R : Type) : Type :=
| Continue (s : S)
| Break (s : S)
| Return (r : R).
Arguments Continue {S R} s.
Arguments Break {S R} s.
Arguments Return {S R} r.

(** How a [for] statement ends: control reaches the statement after the
    loop (generator exhausted, or [break]), or the enclosing function
    returns from inside the body. *)
Inductive loop_exit (S R : Type) : Type :=
| AfterLoop (s : S)
| ReturnedFromLoop (r : R).
Arguments AfterLoop {S R} s.
Arguments ReturnedFromLoop {S R} r.

(** [for a in g: body], with [s] the local variables the body assigns. *)
Fixpoint for_in {A S R} (g : generator A) (body : A -> S -> M (step S R)) (s : S)
  : M (loop_exit S R) :=
  match g with
  | Exhausted => ret (AfterLoop s)
  | Raises x => raise x
  | Yields a rest =>
      bind pulled_one (fun _ =>
      bind (body a s) (fun c =>
      match c with
      | Continue s' => for_in rest body s'
      | Break s' => ret (AfterLoop s')
      | Return r => ret (ReturnedFromLoop r)
      end))
  end.

(** The value a call returns, if it returns. *)
Definition returned {A} (m : M A) (w : world) : result A := fst (m w).

(** What an f-string placeholder renders for a value: [str(None)] is
    "None". *)
Definition str_of_value (v : value) : string :=
  match v with
  | PyNone => "None"
  | PyStr s => s
  end.

(** [os.environ]: a mapping from variable names to strings. *)
Definition environ : Type := string -> option string.

(** [os.environ[k] = v] *)
Definition environ_set (env : environ) (k v : string) : environ :=
  fun k' => if String.eqb k' k then Some v else env k'.

(** [os.environ.get(k, d)] *)
Definition environ_get_default (env : environ) (k d : string) : option string :=
  match env k with
  | Some v => Some v
  | None => Some d
  end.

(** [a or b] on two [Optional[str]]: [a] when truthy, [b] otherwise. *)
Definition or_else (a b : option string) : option string :=
  if truthy_str a then a else b.

(** [a or b] when [b] is a [str]. *)
Definition or_str (a : option string) (b : string) : string :=
  match a with
  | Some (String c s) => String c s
  | _ => b
  end.

(** The string held by an [Optional[str]] known to be truthy. *)
Definition str_of (a : option string) : string :=
  match a with
  | Some s => s
  | None => ""
  end.

(** What the scripts ask of [os.path] and of their own location:
    [os.path.exists], [os.path.abspath], [os.path.join] and
    [os.path.dirname(__file__)]. *)
Record os_path : Type := mkOsPath {
  path_exists : string -> bool;
  path_abspath : string -> string;
  path_join : string -> list string -> string;
  script_dir : string
}.

End Py.

Import Py.

Declare Scope py_scope.
Delimit Scope py_scope with py.
Notation "x <- m ;; k" := (bind m (fun x => k))
  (at level 61, m at next level, right associativity) : py_scope.
Notation "m ;; k" := (bind m (fun _ => k))
  (at level 61, right associativity) : py_scope.
Local Open Scope py_scope.

(** ** The interface of the agent framework the scripts are written against *)
Module Adk.

(** An attribute that an object may or may not have ([hasattr]); when
    present it holds a [str] or [None]. *)
Inductive attr : Type :=
| NoAttr
| Attr (v : option string).

(** [types.Part]: only its [text] is read. *)
Record Part : Type := mkPart {
  part_text : option string
}.

(** [types.Content], and whatever a collaborator puts in [event.content]:
    [content_text] is the optional attribute [text] probed with
    [hasattr]. *)
Record Content : Type := mkContent {
  role : option string;
  content_text : attr;
  parts : option (list Part)
}.

(** [Event]: the result of [event.is_final_response()] and
    [event.content] ([None] or an object). *)
Record Event : Type := mkEvent {
  is_final_response : bool;
  content : option Content
}.

(** [hasattr(c, 'text') and c.text] *)
Definition has_truthy_text (c : Content) : bool :=
  match content_text c with
  | Attr v => truthy_str v
  | NoAttr => false
  end.

(** The value read by [c.text] once [has_truthy_text c] holds. *)
Definition text_of (c : Content) : string :=
  match content_text c with
  | Attr (Some s) => s
  | _ => ""
  end.

(** Truthiness of [c.parts]: a non-empty list. *)
Definition truthy_parts (c : Content) : bool :=
  match parts c with
  | Some (_ :: _) => true
  | _ => false
  end.

(** [[part.text for part in c.parts if part.text]] *)
Fixpoint text_parts (ps : list Part) : list string :=
  match ps with
  | [] => []
  | p :: ps' =>
      match part_text p with
      | Some (String a s) => String a s :: text_parts ps'
      | _ => text_parts ps'
      end
  end.

Definition parts_of (c : Content) : list Part :=
  match parts c with
  | Some ps => ps
  | None => []
  end.

(** [InMemoryRunner], as far as the runners use it: [app_name],
    [session_service.create_session] and [run]. *)
Record InMemoryRunner : Type := mkRunner {
  app_name : string;
  create_session : string -> string -> string -> M unit;
  run : string -> string -> Content -> generator Event
}.

(** [FunctionTool(f)]: the wrapped function and its [__name__]. *)
Record FunctionTool : Type := mkTool {
  tool_name : string;
  func : string -> M string
}.

(** [Agent(...)]; arguments a script leaves out are empty. *)
#[local] Set Warnings "-register-all".
Inductive Agent : Type :=
| mkAgent (name model instruction description : string)
          (tools : list FunctionTool) (sub_agents : list Agent).

Definition name (a : Agent) : string :=
  match a with mkAgent n _ _ _ _ _ => n end.
Definition model (a : Agent) : string :=
  match a with mkAgent _ m _ _ _ _ => m end.
Definition instruction (a : Agent) : string :=
  match a with mkAgent _ _ i _ _ _ => i end.
Definition description (a : Agent) : string :=
  match a with mkAgent _ _ _ d _ _ => d end.
Definition tools (a : Agent) : list FunctionTool :=
  match a with mkAgent _ _ _ _ t _ => t end.
Definition sub_agents (a : Agent) : list Agent :=
  match a with mkAgent _ _ _ _ _ s => s end.

(** Every agent of the tree rooted at [a], parent first. *)
Fixpoint agents_of (a : Agent) : list Agent :=
  match a with
  | mkAgent _ _ _ _ _ subs => a :: flat_map agents_of subs
  end.

(** Every tool bound to some agent of the tree rooted at [a]. *)
Definition tools_of (a : Agent) : list FunctionTool :=
  flat_map tools (agents_of a).

End Adk.

Import Adk.

(** ** chapter1/chapter01.py *)
Module Chapter01.

Definition booking_handler (request : string) : M string :=
  print "------- Booking Handler Called -------" ;;
  ret ("Booking action for '" ++ request ++ "' has been simulated.").

Definition info_handler (request : string) : M string :=
  print "------- Info Handler Called -------" ;;
  ret ("Information request for '" ++ request
       ++ "'. Result: Simulated information retrieval.").

Definition unclear_handler (request : string) : M string :=
  ret ("Coordinator could not delegate request: '" ++ request
       ++ "'. Please clarify.").

Definition booking_tool : FunctionTool := mkTool "booking_handler" booking_handler.
Definition info_tool : FunctionTool := mkTool "info_handler" info_handler.

Definition booking_agent : Agent :=
  mkAgent "Booker" "gemini-2.5-flash" ""
    ("A specialist agent that handles all flights " ++ nl
     ++ "                and hotel booking requests by calling the booking tool.")
    [booking_tool] [].

Definition info_agent : Agent :=
  mkAgent "Info" "gemini-2.5-flash" ""
    ("A specialist agent that handles all general information " ++ nl
     ++ "                and answers user questions by calling the info tool.")
    [info_tool] [].

Definition root_agent : Agent :=
  mkAgent "Coordinator" "gemini-2.5-flash"
    ("You are the main coordinator. Your only task is to analyze incoming user requests "
     ++ "and delegate them to the appropriate specialist agents. Do not try to answer the user directly. " ++ nl
     ++ "- For any requests related to booking flights or hotels, delegate to the 'Booker' agent. " ++ nl ++ " "
     ++ "- For all other general information questions, delegate to the 'Info' agent. " ++ nl)
    "A coordinator that routes user requests to the correct specialist agent."
    [] [booking_agent; info_agent].

(** The body of the [for event in runner.run(...)] loop; [final_result]
    is the one local variable it assigns. *)
Definition loop_body (event : Event) (final_result : string) : M (step string value) :=
  match is_final_response event, content event with
  | true, Some c =>
      let final_result :=
        if has_truthy_text c then text_of c
        else if truthy_parts c then String.concat " " (text_parts (parts_of c))
        else final_result in
      ret (Break final_result)
  | _, _ =>
      print ("Coordinator Final Response: " ++ final_result) ;;
      ret (Return (PyStr final_result))
  end.

Definition run_coordinator (runner : InMemoryRunner) (request : string) : M value :=
  print (nl ++ " --- Running Coordinator for request: '" ++ request ++ "' --- ") ;;
  let final_result := "" in
  try_except_Exception
    (let user_id := "user_123" in
     session_id <- uuid4_str ;;
     create_session runner (app_name runner) user_id session_id ;;
     exit <- for_in
               (run runner user_id session_id
                  (mkContent (Some "user") NoAttr (Some [mkPart (Some request)])))
               loop_body final_result ;;
     match exit with
     | ReturnedFromLoop v => ret v
     | AfterLoop _ => ret PyNone
     end)
    (fun e =>
       print ("An error occurred while processing the your request: " ++ exc_str e) ;;
       ret (PyStr ("An error occurred while processing your request: " ++ exc_str e))).

(** [main()]; [new_runner] stands for the constructor [InMemoryRunner]. *)
Definition main (new_runner : Agent -> M InMemoryRunner) : M unit :=
  print "--- Google ADK Routing Example (ADK Auto-Flow Style) ---" ;;
  print "Note: This requests Google ADK installed and authenticated." ;;
  runner <- new_runner root_agent ;;
  result_a <- run_coordinator runner "Book me a hotel in Paris." ;;
  print ("Final Output A: " ++ str_of_value result_a ++ nl) ;;
  result_b <- run_coordinator runner "What is the highest mountain in the world?" ;;
  print ("Final Output B: " ++ str_of_value result_b ++ nl) ;;
  result_c <- run_coordinator runner "Tell me a random fact." ;;
  print ("Final Output C: " ++ str_of_value result_c ++ nl) ;;
  result_d <- run_coordinator runner "Find flights to Tokyo next month." ;;
  print ("Final Output D: " ++ str_of_value result_d ++ nl).

End Chapter01.

(** ** chapter2/agent.py *)
Module Chapter02.

(** The module-level names bound by the configuration block. *)
Record settings : Type := mkSettings {
  service_account_path : string;
  VERTEX_PROJECT : option string;
  VERTEX_LOCATION : option string
}.

(** Resolution of the service-account key file and of
    [GOOGLE_APPLICATION_CREDENTIALS]. *)
Definition configure_service_account (os : os_path) (env : environ) : M (environ * string) :=
  let service_account_path :=
    or_str (env "GOOGLE_APPLICATION_CREDENTIALS")
      (or_str (env "SERVICE_ACCOUNT_KEY_PATH")
         (path_join os (script_dir os)
            [".."; ".."; "cred"; "genai-vertex-data-engineering.json"])) in
  if path_exists os service_account_path
     && negb (truthy_str (env "GOOGLE_APPLICATION_CREDENTIALS"))
  then
    let env := environ_set env "GOOGLE_APPLICATION_CREDENTIALS"
                 (path_abspath os service_account_path) in
    print ("Using service account: " ++ str_of (env "GOOGLE_APPLICATION_CREDENTIALS")) ;;
    ret (env, service_account_path)
  else if negb (path_exists os service_account_path) then
    print ("Warning: Service account file not found at " ++ service_account_path) ;;
    print "Set GOOGLE_APPLICATION_CREDENTIALS or SERVICE_ACCOUNT_KEY_PATH to use service account authentication." ;;
    ret (env, service_account_path)
  else ret (env, service_account_path).

(** Resolution of the Vertex AI project and location, and the fallback
    assignments to [GOOGLE_CLOUD_PROJECT] and [GOOGLE_CLOUD_LOCATION]. *)
Definition configure_vertex (env : environ) : environ * (option string * option string) :=
  let VERTEX_PROJECT :=
    or_else (env "GOOGLE_CLOUD_PROJECT")
      (or_else (env "GCP_PROJECT") (env "PROJECT")) in
  let VERTEX_LOCATION :=
    or_else (env "GOOGLE_CLOUD_LOCATION")
      (or_else (env "GCP_LOCATION") (environ_get_default env "LOCATION" "us-central1")) in
  let env :=
    if truthy_str VERTEX_PROJECT && negb (truthy_str (env "GOOGLE_CLOUD_PROJECT"))
    then environ_set env "GOOGLE_CLOUD_PROJECT" (str_of VERTEX_PROJECT)
    else env in
  let env :=
    if truthy_str VERTEX_LOCATION && negb (truthy_str (env "GOOGLE_CLOUD_LOCATION"))
    then environ_set env "GOOGLE_CLOUD_LOCATION" (str_of VERTEX_LOCATION)
    else env in
  (env, (VERTEX_PROJECT, VERTEX_LOCATION)).

(** The whole configuration block, run once when the module is loaded:
    the resulting environment and module-level names. *)
Definition configure (os : os_path) (env : environ) : M (environ * settings) :=
  r <- configure_service_account os env ;;
  let (env, vertex) := configure_vertex (fst r) in
  ret (env, mkSettings (snd r) (fst vertex) (snd vertex)).

Definition technical_support_handler (issue : string) : M string :=
  print "------- Technical Support Handler Called -------" ;;
  ret ("Technical support for '" ++ issue
       ++ "': Troubleshooting steps have been provided. Issue logged for tracking.").

Definition billing_handler (inquiry : string) : M string :=
  print "------- Billing Handler Called -------" ;;
  ret ("Billing inquiry for '" ++ inquiry
       ++ "': Account information retrieved. Payment status confirmed.").

Definition product_info_handler (question : string) : M string :=
  print "------- Product Info Handler Called -------" ;;
  ret ("Product information for '" ++ question
       ++ "': Detailed product specifications and features provided.").

Definition technical_support_tool : FunctionTool :=
  mkTool "technical_support_handler" technical_support_handler.
Definition billing_tool : FunctionTool := mkTool "billing_handler" billing_handler.
Definition product_info_tool : FunctionTool :=
  mkTool "product_info_handler" product_info_handler.

Definition model_name : string := "gemini-2.5-flash".

Definition technical_agent : Agent :=
  mkAgent "TechnicalSupport" model_name ""
    ("A specialist agent that handles technical support requests, " ++ nl
     ++ "                troubleshooting, and technical issues by calling the technical support tool.")
    [technical_support_tool] [].

Definition billing_agent : Agent :=
  mkAgent "Billing" model_name ""
    ("A specialist agent that handles billing inquiries, payment questions, " ++ nl
     ++ "                and account-related financial matters by calling the billing tool.")
    [billing_tool] [].

Definition product_agent : Agent :=
  mkAgent "ProductInfo" model_name ""
    ("A specialist agent that handles product information requests, " ++ nl
     ++ "                feature questions, and product specifications by calling the product info tool.")
    [product_info_tool] [].

Definition root_agent : Agent :=
  mkAgent "SupportCoordinator" model_name
    ("You are a customer support coordinator. Your task is to analyze incoming customer requests "
     ++ "and delegate them to the appropriate specialist agents. Do not try to answer the customer directly. " ++ nl
     ++ "- For technical issues, troubleshooting, or technical support requests, delegate to the 'TechnicalSupport' agent. " ++ nl
     ++ "- For billing inquiries, payment questions, or account financial matters, delegate to the 'Billing' agent. " ++ nl
     ++ "- For product information, feature questions, or product specifications, delegate to the 'ProductInfo' agent. " ++ nl)
    "A customer support coordinator that routes customer requests to the correct specialist agent."
    [] [technical_agent; billing_agent; product_agent].

Definition loop_body (event : Event) (final_result : string) : M (step string value) :=
  match is_final_response event, content event with
  | true, Some c =>
      let final_result :=
        if has_truthy_text c then text_of c
        else if truthy_parts c then String.concat " " (text_parts (parts_of c))
        else final_result in
      ret (Break final_result)
  | _, _ =>
      print ("Support Coordinator Final Response: " ++ final_result) ;;
      ret (Return (PyStr final_result))
  end.

Definition run_support_coordinator (runner : InMemoryRunner) (request : string) : M value :=
  print (nl ++ " --- Running Support Coordinator for request: '" ++ request ++ "' --- ") ;;
  let final_result := "" in
  try_except_Exception
    (let user_id := "user_123" in
     session_id <- uuid4_str ;;
     create_session runner (app_name runner) user_id session_id ;;
     exit <- for_in
               (run runner user_id session_id
                  (mkContent (Some "user") NoAttr (Some [mkPart (Some request)])))
               loop_body final_result ;;
     match exit with
     | ReturnedFromLoop v => ret v
     | AfterLoop _ => ret PyNone
     end)
    (fun e =>
       print ("An error occurred while processing the request: " ++ exc_str e) ;;
       ret (PyStr ("An error occurred while processing your request: " ++ exc_str e))).

(** [main()]; [new_runner] stands for the constructor [InMemoryRunner]. *)
Definition main (new_runner : Agent -> M InMemoryRunner) : M unit :=
  print "--- Google ADK Customer Support Example (ADK Auto-Flow Style) ---" ;;
  print "Note: This requires Google ADK installed and authenticated." ;;
  runner <- new_runner root_agent ;;
  result_a <- run_support_coordinator runner "I can't log into my account. Can you help?" ;;
  print ("Final Output A: " ++ str_of_value result_a ++ nl) ;;
  result_b <- run_support_coordinator runner "What are the payment options available?" ;;
  print ("Final Output B: " ++ str_of_value result_b ++ nl) ;;
  result_c <- run_support_coordinator runner "What features does the premium plan include?" ;;
  print ("Final Output C: " ++ str_of_value result_c ++ nl) ;;
  result_d <- run_support_coordinator runner "My payment failed. What should I do?" ;;
  print ("Final Output D: " ++ str_of_value result_d ++ nl).

End Chapter02.

(** ** Vocabulary of the statements *)

(** The six stub handlers of the two scripts. *)
Definition stub_handlers : list (string -> M string) :=
  [Chapter01.booking_handler; Chapter01.info_handler; Chapter01.unclear_handler;
   Chapter02.technical_support_handler; Chapter02.billing_handler;
   Chapter02.product_info_handler].

(** [event] is a final response with content: the guard of the loop body. *)
Definition final_with_content (event : Event) : bool :=
  match is_final_response event, content event with
  | true, Some _ => true
  | _, _ => false
  end.

(** The text a final response carries: its [text] attribute when truthy,
    otherwise its non-empty part texts joined by spaces. *)
Definition carried_text (c : Content) : string :=
  if has_truthy_text c then text_of c
  else String.concat " " (text_parts (parts_of c)).

(** [event] is a final response carrying (non-empty) text. *)
Definition final_with_text (event : Event) : bool :=
  match is_final_response event, content event with
  | true, Some c =>
      match carried_text c with
      | String _ _ => true
      | EmptyString => false
      end
  | _, _ => false
  end.

(** The events a generator would yield if drained, up to its end or its
    raise. *)
Fixpoint events_of {A} (g : generator A) : list A :=
  match g with
  | Yields a rest => a :: events_of rest
  | _ => []
  end.

(** Text of the first final response carrying text among [evs]. *)
Fixpoint first_final_text (evs : list Event) : option string :=
  match evs with
  | [] => None
  | e :: evs' =>
      if final_with_text e then
        match content e with
        | Some c => Some (carried_text c)
        | None => None
        end
      else first_final_text evs'
  end.

(** The fixed prefix of the error string. *)
Definition error_prefix : string := "An error occurred while processing your request: ".

(** A runner whose session creation succeeds silently and whose [run]
    produces [g] whatever it is asked. *)
Definition runner_yielding (g : generator Event) : InMemoryRunner :=
  mkRunner "app" (fun _ _ _ => ret tt) (fun _ _ _ => g).

(** A runner whose session creation raises [x]. *)
Definition runner_failing_session (x : BaseException) (g : generator Event) : InMemoryRunner :=
  mkRunner "app" (fun _ _ _ => raise x) (fun _ _ _ => g).

(** A world with nothing printed, no identifier drawn and no event
    requested yet. *)
Definition world0 : world := mkWorld [] (fun _ => "00000000-0000-4000-8000-000000000000") 0 0.

(** [s] occurs in [out] at offset [n], character for character. *)
Definition occurs_at (n : nat) (s out : string) : Prop :=
  substring n (String.length s) out = s.

(** [h] returns its input between the fixed texts [pre] and [suf], whatever
    the world it is called in. *)
Definition follows_template (h : string -> M string) (pre suf : string) : Prop :=
  forall (s : string) (w : world),
    returned (h s) w = Ok (pre ++ s ++ suf)
    /\ occurs_at (String.length pre) s (pre ++ s ++ suf).

(** The only effect of [m] is to write lines to standard output. *)
Definition only_prints {A} (m : M A) : Prop :=
  forall w, exists lines,
    snd (m w) = mkWorld (stdout w ++ lines) (uuid_source w) (uuid_drawn w) (events_pulled w).

(** Session creation on [runner] returns normally and requests no event. *)
Definition session_ok (runner : InMemoryRunner) : Prop :=
  forall app user sid w, exists w',
    create_session runner app user sid w = (Ok tt, w')
    /\ events_pulled w' = events_pulled w.


(** [runner.run(...)] behaves as the generator [g]. *)
Definition events_are (runner : InMemoryRunner) (g : generator Event) : Prop :=
  forall user sid msg, run runner user sid msg = g.

(** [h], called on [s], returns normally; the value does not depend on the
    world of the call; two calls in a row return the same value twice; and
    nothing but standard output is touched. *)
Definition deterministic_total (h : string -> M string) : Prop :=
  forall (s : string) (w1 w2 : world),
    exists out,
      returned (h s) w1 = Ok out
      /\ returned (h s) w2 = Ok out
      /\ returned (a <- h s ;; b <- h s ;; ret (a, b)) w1 = Ok (out, out)
      /\ only_prints (h s).

(** One execution of [body] ends in [break] on a final response with
    content and in [return final_result] on any other event: it never
    completes normally, so the loop never goes on to a next event. *)
Definition breaks_or_returns (body : Event -> string -> M (step string value)) : Prop :=
  forall e final_result w,
    if final_with_content e
    then exists s, returned (body e final_result) w = Ok (Break s)
    else returned (body e final_result) w = Ok (Return (PyStr final_result)).

(** A loop over [body] requests at most one event from any generator. *)
Definition pulls_at_most_one (body : Event -> string -> M (step string value)) : Prop :=
  forall g final_result w,
    events_pulled (snd (for_in g body final_result w)) <= events_pulled w + 1.

(** A loop over [body] behaves the same whatever follows the first event. *)
Definition ignores_rest (body : Event -> string -> M (step string value)) : Prop :=
  forall e rest rest' final_result w,
    for_in (Yields e rest) body final_result w
    = for_in (Yields e rest') body final_result w.

(** A final response whose content holds the single text part [t], as the
    framework builds them. *)
Definition final_event (t : string) : Event :=
  mkEvent true (Some (mkContent (Some "model") NoAttr (Some [mkPart (Some t)]))).

(** An event that is not a final response. *)
Definition partial_event : Event := mkEvent false None.

(** A partial event followed by a final response carrying "Booked.". *)
Definition late_final_events : generator Event :=
  Yields partial_event (Yields (final_event "Booked.") Exhausted).

(** An [Exception] as a model back end raises it. *)
Definition quota_error : BaseException := mkExc true "model quota exceeded".

(** A final response whose content has neither a [text] nor parts. *)
Definition empty_final_event : Event :=
  mkEvent true (Some (mkContent (Some "model") NoAttr None)).



(** ** Vocabulary of the further statements *)

(** What stands in [out] between a leading [pre] and a trailing [suf]. *)
Definition between (pre suf out : string) : string :=
  substring (String.length pre)
    (String.length out - String.length pre - String.length suf) out.

(** The request given to [h] can be read back from what [h] returns, by
    removing the fixed texts [pre] and [suf]. *)
Definition recovers_input (h : string -> M string) (pre suf : string) : Prop :=
  forall (s : string) (w : world),
    exists out, returned (h s) w = Ok out /\ between pre suf out = s.

(** [text] refers to [agent_name] between single quotes. *)
Definition mentions (text agent_name : string) : bool :=
  match index 0 ("'" ++ agent_name ++ "'") text with
  | Some _ => true
  | None => false
  end.

(** [a] is a specialist: exactly one tool and no sub-agent. *)
Definition is_specialist (a : Agent) : bool :=
  match tools a, sub_agents a with
  | [_], [] => true
  | _, _ => false
  end.

(** [runner] with its [run] replaced by one that produces [g]. *)
Definition with_events (runner : InMemoryRunner) (g : generator Event) : InMemoryRunner :=
  mkRunner (app_name runner) (create_session runner) (fun _ _ _ => g).

(** The message a runner submits for [request]:
    [types.Content(role="user", parts=[types.Part(text=request)])]. *)
Definition user_message (request : string) : Content :=
  mkContent (Some "user") NoAttr (Some [mkPart (Some request)]).

(** Session creation on [runner] returns normally and leaves the world as
    it is. *)
Definition quiet_session (runner : InMemoryRunner) : Prop :=
  forall app user sid w, create_session runner app user sid w = (Ok tt, w).

(** The constructor [new_runner] returns [runner] and leaves the world as
    it is. *)
Definition builds (new_runner : Agent -> M InMemoryRunner) (runner : InMemoryRunner) : Prop :=
  forall a w, new_runner a w = (Ok runner, w).

(** The constructor [new_runner] returns normally. *)
Definition constructs (new_runner : Agent -> M InMemoryRunner) : Prop :=
  forall a w, exists runner w', new_runner a w = (Ok runner, w').

(** Whatever it is asked, [runner] answers with a final response with
    content as its first event. *)
Definition answers_at_once (runner : InMemoryRunner) : Prop :=
  forall user sid msg, exists e rest,
    run runner user sid msg = Yields e rest /\ final_with_content e = true.

(** The world after [n] more lines were printed. *)
Definition with_stdout (w : world) (lines : list string) : world :=
  mkWorld (stdout w ++ lines) (uuid_source w) (uuid_drawn w) (events_pulled w).

(** The environment the configuration block of chapter 2 leaves behind. *)
Definition env_after (os : os_path) (env : environ) (w : world) : environ :=
  match returned (Chapter02.configure os env) w with
  | Ok (env', _) => env'
  | Raised _ => env
  end.

(** The module-level names the configuration block of chapter 2 binds. *)
Definition settings_after (os : os_path) (env : environ) (w : world) : option Chapter02.settings :=
  match returned (Chapter02.configure os env) w with
  | Ok (_, st) => Some st
  | Raised _ => None
  end.

(** The three variables the configuration block may assign. *)
Definition assigned_variables : list string :=
  ["GOOGLE_APPLICATION_CREDENTIALS"; "GOOGLE_CLOUD_PROJECT"; "GOOGLE_CLOUD_LOCATION"].

(** Membership of a name in a list of names. *)
Definition name_in (k : string) (ks : list string) : bool :=
  existsb (String.eqb k) ks.

(** A file system holding the single file [p]; paths are joined with "/"
    and already absolute. *)
Definition os_with_file (p : string) : os_path :=
  mkOsPath (String.eqb p) (fun q => q)
    (fun d parts => String.concat "/" (d :: parts)) "/srv/app/src/chapter2".

(** An environment holding the single binding [k = v]. *)
Definition env_with (k v : string) : environ :=
  fun k' => if String.eqb k' k then Some v else None.

(** The names in [ns] are pairwise different. *)
Fixpoint distinct_names (ns : list string) : bool :=
  match ns with
  | [] => true
  | n :: ns' => negb (name_in n ns') && distinct_names ns'
  end.

(** [root] is a coordinator over specialists: it has sub-agents and no tool
    of its own, each sub-agent has exactly one tool and no sub-agent, agent
    and tool names are pairwise different, and the instruction of [root]
    refers to every sub-agent by its quoted name. *)
Definition well_wired (root : Agent) : bool :=
  match tools root, sub_agents root with
  | [], _ :: _ =>
      forallb is_specialist (sub_agents root)
      && distinct_names (map name (agents_of root))
      && distinct_names (map tool_name (tools_of root))
      && forallb (fun a => mentions (instruction root) (name a)) (sub_agents root)
  | _, _ => false
  end.

(** A runner whose session creation is interrupted by an object that is
    not an [Exception]. *)
Definition interrupted_runner : InMemoryRunner :=
  mkRunner "app" (fun _ _ _ => raise (mkExc false "KeyboardInterrupt"))
    (fun _ _ _ => Exhausted).

(** Session creation on [runner] raises [x] and leaves the world as it
    is. *)
Definition failing_session (runner : InMemoryRunner) (x : BaseException) : Prop :=
  forall app user sid w, create_session runner app user sid w = (Raised x, w).

(** The world after a script's [main] has handled its four requests:
    [lines] printed, four identifiers drawn, [pulled] events requested. *)
Definition after_main (w : world) (lines : list string) (pulled : nat) : world :=
  mkWorld (stdout w ++ lines) (uuid_source w) (4 + uuid_drawn w) (pulled + events_pulled w).

(** ** Auxiliary facts about strings *)

Lemma substring_whole (s b : string) :
  substring 0 (String.length s) (s ++ b) = s.
Proof.
  induction s as [|c s IH]; simpl.
  - destruct b; reflexivity.
  - now rewrite IH.
Qed.

Lemma substring_middle (a s b : string) :
  substring (String.length a) (String.length s) (a ++ s ++ b) = s.
Proof.
  induction a as [|c a IH]; simpl.
  - apply substring_whole.
  - exact IH.
Qed.


(** ** Stub handlers *)

(** C4: each of the five stub handlers bound to a tool returns, for every
    input string [s], the string made of the handler's fixed opening text,
    then [s] verbatim, then the handler's fixed closing text. *)
Theorem stub_handlers_embed_input :
  follows_template Chapter01.booking_handler
    "Booking action for '" "' has been simulated."
  /\ follows_template Chapter01.info_handler
       "Information request for '" "'. Result: Simulated information retrieval."
  /\ follows_template Chapter02.technical_support_handler
       "Technical support for '"
       "': Troubleshooting steps have been provided. Issue logged for tracking."
  /\ follows_template Chapter02.billing_handler
       "Billing inquiry for '"
       "': Account information retrieved. Payment status confirmed."
  /\ follows_template Chapter02.product_info_handler
       "Product information for '"
       "': Detailed product specifications and features provided.".
Proof.
  repeat split; try (apply substring_middle); reflexivity.
Qed.

(** C5: [booking_handler] applied to "Book me a hotel in Paris." returns
    exactly "Booking action for 'Book me a hotel in Paris.' has been
    simulated.". *)
Theorem booking_handler_paris (w : world) :
  returned (Chapter01.booking_handler "Book me a hotel in Paris.") w
  = Ok "Booking action for 'Book me a hotel in Paris.' has been simulated.".
Proof. reflexivity. Qed.

(** C6: [billing_handler] applied to "What are the payment options
    available?" returns exactly "Billing inquiry for 'What are the payment
    options available?': Account information retrieved. Payment status
    confirmed.". *)
Theorem billing_handler_payment_options (w : world) :
  returned (Chapter02.billing_handler "What are the payment options available?") w
  = Ok "Billing inquiry for 'What are the payment options available?': Account information retrieved. Payment status confirmed.".
Proof. reflexivity. Qed.

Ltac handler_case :=
  let s := fresh "s" in
  let w := fresh "w" in
  intros s ? ?; eexists;
  split; [reflexivity | split; [reflexivity | split; [reflexivity | ]]];
  intros w; destruct w; unfold only_prints; simpl;
  first [ exists (@nil string); simpl; now rewrite app_nil_r
        | eexists; reflexivity ].

(** C7: every stub handler is a deterministic, total function of its input
    string: it always returns normally, the returned string is the same in
    every world, calling it twice in a row yields the same string twice,
    and its only effect is the diagnostic print. *)
Theorem stub_handlers_deterministic_total :
  Forall deterministic_total stub_handlers.
Proof.
  repeat constructor; handler_case.
Qed.

(** ** The event-consumption loop *)

Ltac run_unfold :=
  unfold returned, Chapter01.run_coordinator, Chapter02.run_support_coordinator,
    try_except_Exception, bind, print, uuid4_str, pulled_one, ret, raise.

(** C8: in both runners every execution of the loop body ends in [break]
    (final response with content) or in [return] (any other event), never
    in a normal completion; consequently the loop requests at most one
    event from the generator, and what follows the first event has no
    influence on the outcome. *)
Theorem loop_runs_at_most_once :
  (breaks_or_returns Chapter01.loop_body
   /\ pulls_at_most_one Chapter01.loop_body
   /\ ignores_rest Chapter01.loop_body)
  /\ (breaks_or_returns Chapter02.loop_body
      /\ pulls_at_most_one Chapter02.loop_body
      /\ ignores_rest Chapter02.loop_body).
Proof.
  split; (split; [|split]).
  all: try (intros e fr w;
            unfold final_with_content, returned, Chapter01.loop_body, Chapter02.loop_body;
            destruct (is_final_response e), (content e);
            solve [reflexivity | eexists; reflexivity]).
  all: try (intros [|e rest|x] fr w; simpl; try lia;
            unfold bind, pulled_one, Chapter01.loop_body, Chapter02.loop_body;
            destruct (is_final_response e), (content e); simpl; lia).
  all: intros e rest rest' fr w; simpl;
       unfold bind, pulled_one, Chapter01.loop_body, Chapter02.loop_body;
       destruct (is_final_response e), (content e); reflexivity.
Qed.

(** ** The request runners *)

Ltac session_step Hs :=
  match goal with
  | |- context [create_session ?r ?a ?u ?s ?w] =>
      let w' := fresh "w'" in
      let Hc := fresh "Hc" in
      let Hp := fresh "Hp" in
      destruct (Hs a u s w) as (w' & Hc & Hp); rewrite Hc; simpl in Hp
  end.

(** C9: when session creation succeeds and the first event of the
    generator is not a final response with content, both runners return
    the empty string after requesting exactly that one event, whatever
    events follow it, a final response carrying text included. *)
Theorem first_event_not_final_returns_empty
    (runner : InMemoryRunner) (request : string) (w : world)
    (e : Event) (rest : generator Event) :
  session_ok runner ->
  events_are runner (Yields e rest) ->
  final_with_content e = false ->
  (returned (Chapter01.run_coordinator runner request) w = Ok (PyStr "")
   /\ events_pulled (snd (Chapter01.run_coordinator runner request w))
      = events_pulled w + 1)
  /\ (returned (Chapter02.run_support_coordinator runner request) w = Ok (PyStr "")
      /\ events_pulled (snd (Chapter02.run_support_coordinator runner request w))
         = events_pulled w + 1).
Proof.
  intros Hs Hev Hnf.
  unfold final_with_content in Hnf.
  split; run_unfold; simpl; session_step Hs; rewrite Hev; simpl;
    unfold bind, pulled_one, Chapter01.loop_body, Chapter02.loop_body;
    destruct (is_final_response e), (content e); try discriminate; simpl;
    (split; [reflexivity | lia]).
Qed.

Lemma runner_yielding_session_ok (g : generator Event) : session_ok (runner_yielding g).
Proof. intros app user sid w. exists w. split; reflexivity. Qed.

Lemma first_event_not_final_returns_empty_witness :
  first_final_text (events_of late_final_events) = Some "Booked."
  /\ final_with_content partial_event = false
  /\ (returned (Chapter01.run_coordinator (runner_yielding late_final_events)
                  "Book me a hotel in Paris.") world0
      = Ok (PyStr "")
      /\ events_pulled (snd (Chapter01.run_coordinator (runner_yielding late_final_events)
                               "Book me a hotel in Paris." world0))
         = events_pulled world0 + 1)
  /\ (returned (Chapter02.run_support_coordinator (runner_yielding late_final_events)
                  "Book me a hotel in Paris.") world0
      = Ok (PyStr "")
      /\ events_pulled (snd (Chapter02.run_support_coordinator (runner_yielding late_final_events)
                               "Book me a hotel in Paris." world0))
         = events_pulled world0 + 1).
Proof.
  split; [reflexivity | split; [reflexivity | ]].
  apply (first_event_not_final_returns_empty
           (runner_yielding late_final_events) "Book me a hotel in Paris." world0
           partial_event (Yields (final_event "Booked.") Exhausted)).
  - apply runner_yielding_session_ok.
  - intros user sid msg. reflexivity.
  - reflexivity.
Defined.





(** Whatever the collaborator does, an object that a runner lets through
    is not an instance of [Exception]. *)
Lemma runners_propagate_no_Exception
    (runner : InMemoryRunner) (request : string) (w : world) (x : BaseException) :
  returned (Chapter01.run_coordinator runner request) w = Raised x
  \/ returned (Chapter02.run_support_coordinator runner request) w = Raised x ->
  is_Exception x = false.
Proof.
  intros [H | H]; revert H; run_unfold; simpl;
    match goal with
    | |- context [create_session ?r ?a ?u ?s ?w0] =>
        destruct (create_session r a u s w0) as [[[]|y] w1]
    end; simpl.
  all: try (destruct (is_Exception y) eqn:Ey; simpl; intro H;
            [discriminate | congruence]).
  all: destruct (run runner _ _ _) as [|e rest|y]; simpl; try discriminate.
  all: try (destruct (is_Exception y) eqn:Ey; simpl; intro H;
            [discriminate | congruence]).
  all: unfold bind, pulled_one, Chapter01.loop_body, Chapter02.loop_body;
       destruct (is_final_response e), (content e); simpl; discriminate.
Qed.

(** Whenever session creation succeeds and some event of the generator is
    a final response carrying text, what a runner returns is not that
    text: it is [None] when that event comes first and the empty string
    otherwise. *)
Lemma final_text_never_returned
    (runner : InMemoryRunner) (request : string) (w : world)
    (g : generator Event) (t : string) :
  session_ok runner ->
  events_are runner g ->
  first_final_text (events_of g) = Some t ->
  returned (Chapter01.run_coordinator runner request) w <> Ok (PyStr t)
  /\ returned (Chapter02.run_support_coordinator runner request) w <> Ok (PyStr t).
Proof.
  intros Hs Hev Ht.
  destruct g as [|e rest|x]; try discriminate.
  assert (Hne : final_with_text e = false -> t <> "").
  { intros He. simpl in Ht. rewrite He in Ht. clear - Ht.
    induction (events_of rest) as [|e' evs IH]; simpl in Ht; [discriminate|].
    unfold final_with_text in Ht at 1.
    destruct (is_final_response e'), (content e') as [c|]; auto.
    destruct (carried_text c) eqn:Ec; auto.
    injection Ht as <-. discriminate. }
  unfold final_with_text in Hne.
  split; run_unfold; simpl; session_step Hs; rewrite Hev; simpl;
    unfold bind, pulled_one, Chapter01.loop_body, Chapter02.loop_body;
    destruct (is_final_response e), (content e); simpl; try discriminate;
    intro H; injection H as H; symmetry in H; revert H; apply Hne; reflexivity.
Qed.

(** C1 (the code departs from it): on a generator whose only event is a
    final response carrying "Booked.", both runners leave the loop through
    [break], fall off the end of the function and return [None], not
    "Booked.". *)
Theorem final_response_text_is_dropped :
  first_final_text (events_of (Yields (final_event "Booked.") Exhausted)) = Some "Booked."
  /\ returned (Chapter01.run_coordinator
                 (runner_yielding (Yields (final_event "Booked.") Exhausted))
                 "Book me a hotel in Paris.") world0
     = Ok PyNone
  /\ returned (Chapter02.run_support_coordinator
                 (runner_yielding (Yields (final_event "Booked.") Exhausted))
                 "Book me a hotel in Paris.") world0
     = Ok PyNone.
Proof. repeat split. Qed.

(** C2 (the code departs from it): on a generator that yields nothing, and
    on one whose only event is a final response without text, no event is
    a final response carrying text, and both runners return [None], not
    the empty string. *)
Theorem no_final_text_returns_None :
  (forallb (fun e => negb (final_with_text e)) (events_of (@Exhausted Event)) = true
   /\ returned (Chapter01.run_coordinator (runner_yielding Exhausted)
                  "Tell me a random fact.") world0 = Ok PyNone
   /\ returned (Chapter02.run_support_coordinator (runner_yielding Exhausted)
                  "Tell me a random fact.") world0 = Ok PyNone)
  /\ (forallb (fun e => negb (final_with_text e))
        (events_of (Yields empty_final_event Exhausted)) = true
      /\ returned (Chapter01.run_coordinator
                     (runner_yielding (Yields empty_final_event Exhausted))
                     "Tell me a random fact.") world0 = Ok PyNone
      /\ returned (Chapter02.run_support_coordinator
                     (runner_yielding (Yields empty_final_event Exhausted))
                     "Tell me a random fact.") world0 = Ok PyNone).
Proof. repeat split. Qed.

(** ** Agent wiring of chapter 1 *)

(** C10: the coordinator's sub-agents are exactly Booker and Info; the
    tools bound in its agent tree are exactly the wrappers of
    [booking_handler] and [info_handler]; [unclear_handler] is bound to
    none of them, and no bound tool can return a string that
    [unclear_handler] produces. *)
Theorem unclear_handler_is_unreachable :
  sub_agents Chapter01.root_agent = [Chapter01.booking_agent; Chapter01.info_agent]
  /\ map name (sub_agents Chapter01.root_agent) = ["Booker"; "Info"]
  /\ tools Chapter01.root_agent = []
  /\ tools_of Chapter01.root_agent = [Chapter01.booking_tool; Chapter01.info_tool]
  /\ map tool_name (tools_of Chapter01.root_agent) = ["booking_handler"; "info_handler"]
  /\ ~ In "unclear_handler" (map tool_name (tools_of Chapter01.root_agent))
  /\ Forall (fun t => forall s s' w w',
               returned (func t s) w <> returned (Chapter01.unclear_handler s') w')
       (tools_of Chapter01.root_agent).
Proof.
  repeat split.
  - simpl. intros [H | [H | []]]; discriminate.
  - repeat constructor; intros s s' w w'; simpl; discriminate.
Qed.

(** ** Further properties of the stub handlers *)

Lemma length_append (a b : string) :
  String.length (a ++ b) = String.length a + String.length b.
Proof. induction a as [|c a IH]; simpl; [reflexivity | now rewrite IH]. Qed.

Lemma between_template (pre suf s : string) :
  between pre suf (pre ++ s ++ suf) = s.
Proof.
  unfold between. rewrite !length_append.
  replace (String.length pre + (String.length s + String.length suf)
           - String.length pre - String.length suf)
    with (String.length s) by lia.
  apply substring_middle.
Qed.

Ltac recover_case :=
  let s := fresh "s" in
  let w := fresh "w" in
  intros s w; eexists; split; [reflexivity | apply between_template].

(** X1: the request handed to any of the six stub handlers can be read
    back from the returned string by stripping the handler's fixed opening
    and closing texts; in particular different requests give different
    replies. *)
Theorem handler_reply_recovers_request :
  recovers_input Chapter01.booking_handler
    "Booking action for '" "' has been simulated."
  /\ recovers_input Chapter01.info_handler
       "Information request for '" "'. Result: Simulated information retrieval."
  /\ recovers_input Chapter01.unclear_handler
       "Coordinator could not delegate request: '" "'. Please clarify."
  /\ recovers_input Chapter02.technical_support_handler
       "Technical support for '"
       "': Troubleshooting steps have been provided. Issue logged for tracking."
  /\ recovers_input Chapter02.billing_handler
       "Billing inquiry for '"
       "': Account information retrieved. Payment status confirmed."
  /\ recovers_input Chapter02.product_info_handler
       "Product information for '"
       "': Detailed product specifications and features provided.".
Proof.
  repeat (split; [recover_case | ]). recover_case.
Qed.

(** X2: two different stub handlers never return the same string,
    whatever requests they are given: a reply identifies the handler that
    produced it. *)
Theorem replies_identify_handler
    (i j : nat) (h h' : string -> M string) (s t : string) (w w' : world) :
  i <> j ->
  nth_error stub_handlers i = Some h ->
  nth_error stub_handlers j = Some h' ->
  returned (h s) w <> returned (h' t) w'.
Proof.
  intros Hij Hi Hj.
  destruct i as [|[|[|[|[|[|i]]]]]]; simpl in Hi;
    try (destruct i; discriminate); injection Hi as <-;
    destruct j as [|[|[|[|[|[|j]]]]]]; simpl in Hj;
    try (destruct j; discriminate); injection Hj as <-;
    try (now elim Hij); simpl; discriminate.
Qed.

Lemma replies_identify_handler_witness :
  0 <> 4
  /\ returned (Chapter01.booking_handler "refund") world0
     <> returned (Chapter02.billing_handler "refund") world0.
Proof.
  split; [discriminate | ].
  apply (replies_identify_handler 0 4 Chapter01.booking_handler Chapter02.billing_handler
           "refund" "refund" world0 world0).
  - discriminate.
  - reflexivity.
  - reflexivity.
Defined.

(** ** Agent wiring of both scripts *)

(** X3: in both scripts the coordinator has no tool of its own, every
    sub-agent has exactly one tool and no sub-agent, agent names and tool
    names are pairwise different, and the coordinator's instruction refers
    to every sub-agent by its quoted name; chapter 2 binds exactly the
    three support handlers, in the order of its sub-agents. *)
Theorem coordinators_are_well_wired :
  well_wired Chapter01.root_agent = true
  /\ well_wired Chapter02.root_agent = true
  /\ map name (sub_agents Chapter02.root_agent)
     = ["TechnicalSupport"; "Billing"; "ProductInfo"]
  /\ tools_of Chapter02.root_agent
     = [Chapter02.technical_support_tool; Chapter02.billing_tool;
        Chapter02.product_info_tool].
Proof. repeat split; vm_compute; reflexivity. Qed.

(** ** What the runners ask of, and take from, the collaborator *)

(** X4: a runner consults its collaborator only through one
    [create_session] call and one [run] call, both for user "user_123" and
    for the same freshly drawn session identifier, the request being
    submitted as a single user text part: two collaborators that agree on
    those two calls give the same outcome and the same output. *)
Theorem runners_use_one_fresh_session
    (r1 r2 : InMemoryRunner) (request : string) (w : world) :
  (forall w', create_session r1 (app_name r1) "user_123" (uuid_source w (uuid_drawn w)) w'
              = create_session r2 (app_name r2) "user_123" (uuid_source w (uuid_drawn w)) w') ->
  run r1 "user_123" (uuid_source w (uuid_drawn w)) (user_message request)
  = run r2 "user_123" (uuid_source w (uuid_drawn w)) (user_message request) ->
  Chapter01.run_coordinator r1 request w = Chapter01.run_coordinator r2 request w
  /\ Chapter02.run_support_coordinator r1 request w
     = Chapter02.run_support_coordinator r2 request w.
Proof.
  intros Hs Hr. unfold user_message in Hr.
  split; run_unfold; simpl; rewrite Hs, Hr; reflexivity.
Qed.

Lemma runners_use_one_fresh_session_witness :
  Chapter01.run_coordinator (runner_yielding late_final_events) "Tell me a random fact." world0
  = Chapter01.run_coordinator
      (mkRunner "app" (fun _ _ _ => ret tt)
         (fun user _ _ => if String.eqb user "user_123" then late_final_events
                          else Raises quota_error))
      "Tell me a random fact." world0
  /\ Chapter02.run_support_coordinator (runner_yielding late_final_events)
       "Tell me a random fact." world0
     = Chapter02.run_support_coordinator
         (mkRunner "app" (fun _ _ _ => ret tt)
            (fun user _ _ => if String.eqb user "user_123" then late_final_events
                             else Raises quota_error))
         "Tell me a random fact." world0.
Proof.
  apply (runners_use_one_fresh_session
           (runner_yielding late_final_events)
           (mkRunner "app" (fun _ _ _ => ret tt)
              (fun user _ _ => if String.eqb user "user_123" then late_final_events
                               else Raises quota_error))
           "Tell me a random fact." world0).
  - intros w'. reflexivity.
  - reflexivity.
Defined.

(** X5: of the events, a runner's outcome and output depend only on
    whether the first one is a final response with content: the text the
    events carry, and every later event, have no influence. *)
Theorem outcome_ignores_event_contents
    (runner : InMemoryRunner) (request : string) (w : world)
    (e1 e2 : Event) (rest1 rest2 : generator Event) :
  final_with_content e1 = final_with_content e2 ->
  Chapter01.run_coordinator (with_events runner (Yields e1 rest1)) request w
  = Chapter01.run_coordinator (with_events runner (Yields e2 rest2)) request w
  /\ Chapter02.run_support_coordinator (with_events runner (Yields e1 rest1)) request w
     = Chapter02.run_support_coordinator (with_events runner (Yields e2 rest2)) request w.
Proof.
  unfold final_with_content. intros He.
  split; run_unfold; simpl;
    match goal with
    | |- context [create_session ?r ?a ?u ?s ?w0] =>
        destruct (create_session r a u s w0) as [[[]|y] w1]
    end; simpl; try reflexivity;
    unfold bind, pulled_one, Chapter01.loop_body, Chapter02.loop_body;
    destruct (is_final_response e1), (content e1), (is_final_response e2), (content e2);
    simpl; try discriminate; reflexivity.
Qed.

Lemma outcome_ignores_event_contents_witness :
  Chapter01.run_coordinator
    (with_events (runner_yielding Exhausted) (Yields (final_event "Booked.") Exhausted))
    "Book me a hotel in Paris." world0
  = Chapter01.run_coordinator
      (with_events (runner_yielding Exhausted) (Yields empty_final_event late_final_events))
      "Book me a hotel in Paris." world0
  /\ Chapter02.run_support_coordinator
       (with_events (runner_yielding Exhausted) (Yields (final_event "Booked.") Exhausted))
       "Book me a hotel in Paris." world0
     = Chapter02.run_support_coordinator
         (with_events (runner_yielding Exhausted) (Yields empty_final_event late_final_events))
         "Book me a hotel in Paris." world0.
Proof.
  apply (outcome_ignores_event_contents (runner_yielding Exhausted)
           "Book me a hotel in Paris." world0
           (final_event "Booked.") empty_final_event Exhausted late_final_events).
  reflexivity.
Defined.

(** ** The drivers *)

Lemma run_coordinator_at_once (runner : InMemoryRunner) (request : string) (w : world) :
  quiet_session runner ->
  answers_at_once runner ->
  Chapter01.run_coordinator runner request w
  = (Ok PyNone,
     mkWorld (stdout w ++ [nl ++ " --- Running Coordinator for request: '" ++ request ++ "' --- "])
       (uuid_source w) (S (uuid_drawn w)) (S (events_pulled w))).
Proof.
  intros Hq Ha. run_unfold. simpl. rewrite Hq.
  match goal with
  | |- context [run ?r ?u ?s ?m] => destruct (Ha u s m) as (e & rest & Hr & He); rewrite Hr
  end.
  unfold final_with_content in He. simpl.
  unfold bind, pulled_one, Chapter01.loop_body.
  destruct (is_final_response e), (content e); try discriminate. reflexivity.
Qed.

Lemma run_support_coordinator_at_once (runner : InMemoryRunner) (request : string) (w : world) :
  quiet_session runner ->
  answers_at_once runner ->
  Chapter02.run_support_coordinator runner request w
  = (Ok PyNone,
     mkWorld (stdout w ++ [nl ++ " --- Running Support Coordinator for request: '" ++ request ++ "' --- "])
       (uuid_source w) (S (uuid_drawn w)) (S (events_pulled w))).
Proof.
  intros Hq Ha. run_unfold. simpl. rewrite Hq.
  match goal with
  | |- context [run ?r ?u ?s ?m] => destruct (Ha u s m) as (e & rest & Hr & He); rewrite Hr
  end.
  unfold final_with_content in He. simpl.
  unfold bind, pulled_one, Chapter02.loop_body.
  destruct (is_final_response e), (content e); try discriminate. reflexivity.
Qed.

Ltac main_unfold :=
  unfold Chapter01.main, Chapter02.main, after_main, bind, print; cbv beta iota.

Ltac next_world :=
  cbv beta iota; cbn [stdout uuid_source uuid_drawn events_pulled].

Ltac flatten_stdout :=
  cbn [stdout uuid_source uuid_drawn events_pulled];
  repeat rewrite <- app_assoc; cbn [app].

(** X6: when the runner is built and sessions are created silently, and
    the collaborator answers every request at once with a final response
    with content, each script's [main] completes and prints, after its two
    header lines, for each of its four requests the runner's banner and a
    line "Final Output _: None"; none of the answers is shown. *)
Theorem main_prints_None_for_immediate_answers
    (new_runner : Agent -> M InMemoryRunner) (runner : InMemoryRunner) (w : world) :
  builds new_runner runner ->
  quiet_session runner ->
  answers_at_once runner ->
  Chapter01.main new_runner w
  = (Ok tt,
     after_main w
       ["--- Google ADK Routing Example (ADK Auto-Flow Style) ---";
        "Note: This requests Google ADK installed and authenticated.";
        nl ++ " --- Running Coordinator for request: 'Book me a hotel in Paris.' --- ";
        "Final Output A: None" ++ nl;
        nl ++ " --- Running Coordinator for request: 'What is the highest mountain in the world?' --- ";
        "Final Output B: None" ++ nl;
        nl ++ " --- Running Coordinator for request: 'Tell me a random fact.' --- ";
        "Final Output C: None" ++ nl;
        nl ++ " --- Running Coordinator for request: 'Find flights to Tokyo next month.' --- ";
        "Final Output D: None" ++ nl] 4)
  /\ Chapter02.main new_runner w
     = (Ok tt,
        after_main w
          ["--- Google ADK Customer Support Example (ADK Auto-Flow Style) ---";
           "Note: This requires Google ADK installed and authenticated.";
           nl ++ " --- Running Support Coordinator for request: 'I can't log into my account. Can you help?' --- ";
           "Final Output A: None" ++ nl;
           nl ++ " --- Running Support Coordinator for request: 'What are the payment options available?' --- ";
           "Final Output B: None" ++ nl;
           nl ++ " --- Running Support Coordinator for request: 'What features does the premium plan include?' --- ";
           "Final Output C: None" ++ nl;
           nl ++ " --- Running Support Coordinator for request: 'My payment failed. What should I do?' --- ";
           "Final Output D: None" ++ nl] 4).
Proof.
  intros Hb Hq Ha. split; main_unfold; rewrite Hb; next_world.
  - repeat (rewrite run_coordinator_at_once by assumption; next_world).
    flatten_stdout. reflexivity.
  - repeat (rewrite run_support_coordinator_at_once by assumption; next_world).
    flatten_stdout. reflexivity.
Qed.

Lemma main_prints_None_for_immediate_answers_witness :
  Chapter01.main (fun _ => ret (runner_yielding (Yields (final_event "Booked.") Exhausted)))
    world0
  = (Ok tt,
     after_main world0
       ["--- Google ADK Routing Example (ADK Auto-Flow Style) ---";
        "Note: This requests Google ADK installed and authenticated.";
        nl ++ " --- Running Coordinator for request: 'Book me a hotel in Paris.' --- ";
        "Final Output A: None" ++ nl;
        nl ++ " --- Running Coordinator for request: 'What is the highest mountain in the world?' --- ";
        "Final Output B: None" ++ nl;
        nl ++ " --- Running Coordinator for request: 'Tell me a random fact.' --- ";
        "Final Output C: None" ++ nl;
        nl ++ " --- Running Coordinator for request: 'Find flights to Tokyo next month.' --- ";
        "Final Output D: None" ++ nl] 4).
Proof.
  refine (proj1 (main_prints_None_for_immediate_answers
                   (fun _ => ret (runner_yielding (Yields (final_event "Booked.") Exhausted)))
                   (runner_yielding (Yields (final_event "Booked.") Exhausted)) world0
                   _ _ _)).
  - intros a w. reflexivity.
  - intros app user sid w. reflexivity.
  - intros user sid msg. exists (final_event "Booked."), Exhausted. split; reflexivity.
Defined.

Lemma run_coordinator_session_fails
    (runner : InMemoryRunner) (request : string) (w : world) (x : BaseException) :
  failing_session runner x ->
  is_Exception x = true ->
  Chapter01.run_coordinator runner request w
  = (Ok (PyStr (error_prefix ++ exc_str x)),
     mkWorld (stdout w ++ [nl ++ " --- Running Coordinator for request: '" ++ request ++ "' --- ";
                           "An error occurred while processing the your request: " ++ exc_str x])
       (uuid_source w) (S (uuid_drawn w)) (events_pulled w)).
Proof.
  intros Hf Hx. run_unfold. simpl. rewrite Hf, Hx. simpl.
  rewrite <- app_assoc. reflexivity.
Qed.

Lemma run_support_coordinator_session_fails
    (runner : InMemoryRunner) (request : string) (w : world) (x : BaseException) :
  failing_session runner x ->
  is_Exception x = true ->
  Chapter02.run_support_coordinator runner request w
  = (Ok (PyStr (error_prefix ++ exc_str x)),
     mkWorld (stdout w ++ [nl ++ " --- Running Support Coordinator for request: '" ++ request ++ "' --- ";
                           "An error occurred while processing the request: " ++ exc_str x])
       (uuid_source w) (S (uuid_drawn w)) (events_pulled w)).
Proof.
  intros Hf Hx. run_unfold. simpl. rewrite Hf, Hx. simpl.
  rewrite <- app_assoc. reflexivity.
Qed.

(** X7: when every session creation raises the [Exception] [x], each
    script's [main] still handles all four requests and completes: for
    each request it prints the banner, the diagnostic error line and a
    "Final Output" line holding the error string; no event is requested. *)
Theorem main_survives_failing_sessions
    (new_runner : Agent -> M InMemoryRunner) (runner : InMemoryRunner) (w : world)
    (x : BaseException) :
  builds new_runner runner ->
  failing_session runner x ->
  is_Exception x = true ->
  Chapter01.main new_runner w
  = (Ok tt,
     after_main w
       ["--- Google ADK Routing Example (ADK Auto-Flow Style) ---";
        "Note: This requests Google ADK installed and authenticated.";
        nl ++ " --- Running Coordinator for request: 'Book me a hotel in Paris.' --- ";
        "An error occurred while processing the your request: " ++ exc_str x;
        "Final Output A: " ++ (error_prefix ++ exc_str x) ++ nl;
        nl ++ " --- Running Coordinator for request: 'What is the highest mountain in the world?' --- ";
        "An error occurred while processing the your request: " ++ exc_str x;
        "Final Output B: " ++ (error_prefix ++ exc_str x) ++ nl;
        nl ++ " --- Running Coordinator for request: 'Tell me a random fact.' --- ";
        "An error occurred while processing the your request: " ++ exc_str x;
        "Final Output C: " ++ (error_prefix ++ exc_str x) ++ nl;
        nl ++ " --- Running Coordinator for request: 'Find flights to Tokyo next month.' --- ";
        "An error occurred while processing the your request: " ++ exc_str x;
        "Final Output D: " ++ (error_prefix ++ exc_str x) ++ nl] 0)
  /\ Chapter02.main new_runner w
     = (Ok tt,
        after_main w
          ["--- Google ADK Customer Support Example (ADK Auto-Flow Style) ---";
           "Note: This requires Google ADK installed and authenticated.";
           nl ++ " --- Running Support Coordinator for request: 'I can't log into my account. Can you help?' --- ";
           "An error occurred while processing the request: " ++ exc_str x;
           "Final Output A: " ++ (error_prefix ++ exc_str x) ++ nl;
           nl ++ " --- Running Support Coordinator for request: 'What are the payment options available?' --- ";
           "An error occurred while processing the request: " ++ exc_str x;
           "Final Output B: " ++ (error_prefix ++ exc_str x) ++ nl;
           nl ++ " --- Running Support Coordinator for request: 'What features does the premium plan include?' --- ";
           "An error occurred while processing the request: " ++ exc_str x;
           "Final Output C: " ++ (error_prefix ++ exc_str x) ++ nl;
           nl ++ " --- Running Support Coordinator for request: 'My payment failed. What should I do?' --- ";
           "An error occurred while processing the request: " ++ exc_str x;
           "Final Output D: " ++ (error_prefix ++ exc_str x) ++ nl] 0).
Proof.
  intros Hb Hf Hx. split; main_unfold; rewrite Hb; next_world.
  - repeat (rewrite (run_coordinator_session_fails runner _ _ x) by assumption; next_world).
    flatten_stdout. reflexivity.
  - repeat (rewrite (run_support_coordinator_session_fails runner _ _ x) by assumption;
            next_world).
    flatten_stdout. reflexivity.
Qed.

Lemma main_survives_failing_sessions_witness :
  returned (Chapter01.main (fun _ => ret (runner_failing_session quota_error Exhausted))) world0
  = Ok tt
  /\ returned (Chapter02.main (fun _ => ret (runner_failing_session quota_error Exhausted))) world0
     = Ok tt.
Proof.
  destruct (main_survives_failing_sessions
              (fun _ => ret (runner_failing_session quota_error Exhausted))
              (runner_failing_session quota_error Exhausted) world0 quota_error)
    as [H1 H2].
  - intros a w. reflexivity.
  - intros app user sid w. reflexivity.
  - reflexivity.
  - unfold returned. rewrite H1, H2. split; reflexivity.
Defined.

Lemma run_coordinator_outcome (runner : InMemoryRunner) (request : string) (w : world) :
  match returned (Chapter01.run_coordinator runner request) w with
  | Ok _ => True
  | Raised x => is_Exception x = false
  end.
Proof.
  destruct (returned (Chapter01.run_coordinator runner request) w) as [v|x] eqn:E; [exact I|].
  apply (runners_propagate_no_Exception runner request w x). now left.
Qed.

Lemma run_support_coordinator_outcome (runner : InMemoryRunner) (request : string) (w : world) :
  match returned (Chapter02.run_support_coordinator runner request) w with
  | Ok _ => True
  | Raised x => is_Exception x = false
  end.
Proof.
  destruct (returned (Chapter02.run_support_coordinator runner request) w) as [v|x] eqn:E;
    [exact I|].
  apply (runners_propagate_no_Exception runner request w x). now right.
Qed.

Ltac request_step lem :=
  match goal with
  | |- context [Chapter01.run_coordinator ?r ?q ?w0] =>
      let H := fresh "H" in
      pose proof (lem r q w0) as H; unfold returned in H;
      destruct (Chapter01.run_coordinator r q w0) as [[?|?] ?]; simpl in H |- *
  | |- context [Chapter02.run_support_coordinator ?r ?q ?w0] =>
      let H := fresh "H" in
      pose proof (lem r q w0) as H; unfold returned in H;
      destruct (Chapter02.run_support_coordinator r q w0) as [[?|?] ?]; simpl in H |- *
  end.

(** X8: once the runner has been constructed, no [Exception] raised while
    a request is handled escapes a script's [main]: whatever the
    collaborator does, an object that [main] lets through is not an
    instance of [Exception]. *)
Theorem main_lets_no_Exception_through
    (new_runner : Agent -> M InMemoryRunner) (w : world) (x : BaseException) :
  constructs new_runner ->
  returned (Chapter01.main new_runner) w = Raised x
  \/ returned (Chapter02.main new_runner) w = Raised x ->
  is_Exception x = false.
Proof.
  intros Hc [H | H]; revert H; unfold returned; main_unfold;
    match goal with
    | |- context [new_runner ?a ?w0] =>
        destruct (Hc a w0) as (runner & w1 & Hn); rewrite Hn
    end; next_world.
  - repeat (request_step run_coordinator_outcome; [ | intro E; congruence]).
    discriminate.
  - repeat (request_step run_support_coordinator_outcome; [ | intro E; congruence]).
    discriminate.
Qed.

Lemma main_lets_no_Exception_through_witness :
  returned (Chapter01.main (fun _ => ret interrupted_runner)) world0
  = Raised (mkExc false "KeyboardInterrupt")
  /\ is_Exception (mkExc false "KeyboardInterrupt") = false.
Proof.
  split; [reflexivity | ].
  apply (main_lets_no_Exception_through (fun _ => ret interrupted_runner) world0
           (mkExc false "KeyboardInterrupt")).
  - intros a w. exists interrupted_runner, w. reflexivity.
  - left. reflexivity.
Defined.

(** ** The configuration block of chapter 2 *)

Ltac config_unfold :=
  unfold env_after, settings_after, returned, Chapter02.configure,
    Chapter02.configure_service_account, Chapter02.configure_vertex, bind, print, ret.

Ltac split_conditions :=
  repeat match goal with
         | |- context [path_exists ?o ?p] => destruct (path_exists o p)
         | |- context [truthy_str ?v] => destruct (truthy_str v)
         end.

Lemma env_after_credentials (os : os_path) (env : environ) (w : world) :
  env_after os env w "GOOGLE_APPLICATION_CREDENTIALS"
  = if path_exists os
         (or_str (env "GOOGLE_APPLICATION_CREDENTIALS")
            (or_str (env "SERVICE_ACCOUNT_KEY_PATH")
               (path_join os (script_dir os)
                  [".."; ".."; "cred"; "genai-vertex-data-engineering.json"])))
       && negb (truthy_str (env "GOOGLE_APPLICATION_CREDENTIALS"))
    then Some (path_abspath os
                 (or_str (env "GOOGLE_APPLICATION_CREDENTIALS")
                    (or_str (env "SERVICE_ACCOUNT_KEY_PATH")
                       (path_join os (script_dir os)
                          [".."; ".."; "cred"; "genai-vertex-data-engineering.json"]))))
    else env "GOOGLE_APPLICATION_CREDENTIALS".
Proof.
  config_unfold.
  destruct (path_exists os _); destruct (truthy_str (env "GOOGLE_APPLICATION_CREDENTIALS"));
    cbn; split_conditions; reflexivity.
Qed.

Lemma env_after_project (os : os_path) (env : environ) (w : world) :
  env_after os env w "GOOGLE_CLOUD_PROJECT"
  = if truthy_str (or_else (env "GOOGLE_CLOUD_PROJECT")
                     (or_else (env "GCP_PROJECT") (env "PROJECT")))
       && negb (truthy_str (env "GOOGLE_CLOUD_PROJECT"))
    then Some (str_of (or_else (env "GOOGLE_CLOUD_PROJECT")
                         (or_else (env "GCP_PROJECT") (env "PROJECT"))))
    else env "GOOGLE_CLOUD_PROJECT".
Proof.
  config_unfold.
  destruct (path_exists os _); destruct (truthy_str (env "GOOGLE_APPLICATION_CREDENTIALS"));
    cbn; split_conditions; reflexivity.
Qed.

Lemma env_after_location (os : os_path) (env : environ) (w : world) :
  env_after os env w "GOOGLE_CLOUD_LOCATION"
  = if truthy_str (or_else (env "GOOGLE_CLOUD_LOCATION")
                     (or_else (env "GCP_LOCATION")
                        (environ_get_default env "LOCATION" "us-central1")))
       && negb (truthy_str (env "GOOGLE_CLOUD_LOCATION"))
    then Some (str_of (or_else (env "GOOGLE_CLOUD_LOCATION")
                         (or_else (env "GCP_LOCATION")
                            (environ_get_default env "LOCATION" "us-central1"))))
    else env "GOOGLE_CLOUD_LOCATION".
Proof.
  config_unfold. unfold environ_get_default, environ_set.
  destruct (path_exists os _); destruct (truthy_str (env "GOOGLE_APPLICATION_CREDENTIALS"));
    cbn;
    destruct (truthy_str (or_else (env "GOOGLE_CLOUD_PROJECT") _));
    destruct (truthy_str (env "GOOGLE_CLOUD_PROJECT")); cbn;
    split_conditions; reflexivity.
Qed.

Lemma env_after_other (os : os_path) (env : environ) (w : world) (k : string) :
  name_in k assigned_variables = false ->
  env_after os env w k = env k.
Proof.
  unfold name_in, assigned_variables. cbn [existsb]. intros H.
  apply orb_false_elim in H as [H1 H]. apply orb_false_elim in H as [H2 H].
  apply orb_false_elim in H as [H3 _].
  config_unfold. unfold environ_get_default, environ_set.
  destruct (path_exists os _); destruct (truthy_str (env "GOOGLE_APPLICATION_CREDENTIALS"));
    cbn;
    destruct (truthy_str (or_else (env "GOOGLE_CLOUD_PROJECT") _));
    destruct (truthy_str (env "GOOGLE_CLOUD_PROJECT")); cbn;
    split_conditions; cbn; rewrite ?H1, ?H2, ?H3; reflexivity.
Qed.

Lemma name_in_assigned (k : string) :
  name_in k assigned_variables = true ->
  k = "GOOGLE_APPLICATION_CREDENTIALS" \/ k = "GOOGLE_CLOUD_PROJECT"
  \/ k = "GOOGLE_CLOUD_LOCATION".
Proof.
  unfold name_in, assigned_variables. cbn [existsb]. intros H.
  apply orb_true_elim in H as [H | H]; [left; now apply String.eqb_eq | ].
  apply orb_true_elim in H as [H | H]; [right; left; now apply String.eqb_eq | ].
  apply orb_true_elim in H as [H | H]; [right; right; now apply String.eqb_eq | discriminate].
Qed.

Ltac env_cases env :=
  repeat match goal with
         | |- context [env ?k] =>
             let o := fresh "o" in
             let E := fresh "E" in
             destruct (env k) as [[|? ?]|] eqn:E
         end.

(** X9: the configuration block only fills gaps: a variable that already
    holds a non-empty value keeps it, and no variable other than
    GOOGLE_APPLICATION_CREDENTIALS, GOOGLE_CLOUD_PROJECT and
    GOOGLE_CLOUD_LOCATION is ever assigned. *)
Theorem configure_only_fills_gaps
    (os : os_path) (env : environ) (w : world) (k : string) :
  truthy_str (env k) = true \/ name_in k assigned_variables = false ->
  env_after os env w k = env k.
Proof.
  intros H. destruct (name_in k assigned_variables) eqn:Hk.
  - destruct H as [H | H]; [ | discriminate].
    apply name_in_assigned in Hk as [-> | [-> | ->]].
    + rewrite env_after_credentials, H, andb_false_r. reflexivity.
    + rewrite env_after_project, H, andb_false_r. reflexivity.
    + rewrite env_after_location, H, andb_false_r. reflexivity.
  - now apply env_after_other.
Qed.

Lemma configure_only_fills_gaps_witness :
  env_after (os_with_file "/keys/sa.json")
    (env_with "GOOGLE_APPLICATION_CREDENTIALS" "/elsewhere/key.json") world0
    "GOOGLE_APPLICATION_CREDENTIALS"
  = Some "/elsewhere/key.json".
Proof.
  apply (configure_only_fills_gaps (os_with_file "/keys/sa.json")
           (env_with "GOOGLE_APPLICATION_CREDENTIALS" "/elsewhere/key.json") world0
           "GOOGLE_APPLICATION_CREDENTIALS").
  left. reflexivity.
Defined.

(** X10: the configuration block is idempotent on the environment:
    running it again on the environment it produced changes no
    variable. *)
Theorem configure_is_idempotent
    (os : os_path) (env : environ) (w w' : world) (k : string) :
  env_after os (env_after os env w) w' k = env_after os env w k.
Proof.
  destruct (name_in k assigned_variables) eqn:Hk.
  - apply name_in_assigned in Hk as [-> | [-> | ->]].
    + rewrite (env_after_credentials os (env_after os env w)).
      rewrite (env_after_other os env w "SERVICE_ACCOUNT_KEY_PATH") by reflexivity.
      rewrite env_after_credentials.
      remember (or_str (env "SERVICE_ACCOUNT_KEY_PATH")
                  (path_join os (script_dir os)
                     [".."; ".."; "cred"; "genai-vertex-data-engineering.json"])) as p eqn:Hp.
      clear Hp.
      destruct (env "GOOGLE_APPLICATION_CREDENTIALS") as [[|c s]|]; cbn.
      * destruct (path_exists os p) eqn:P; cbn.
        -- destruct (path_abspath os p) as [|c s] eqn:A; cbn.
           ++ rewrite P. cbn. rewrite A. reflexivity.
           ++ rewrite ?andb_false_r. reflexivity.
        -- rewrite P. reflexivity.
      * rewrite ?andb_false_r; cbn; rewrite ?andb_false_r; reflexivity.
      * destruct (path_exists os p) eqn:P; cbn.
        -- destruct (path_abspath os p) as [|c s] eqn:A; cbn.
           ++ rewrite P. cbn. rewrite A. reflexivity.
           ++ rewrite ?andb_false_r. reflexivity.
        -- rewrite P. reflexivity.
    + rewrite (env_after_project os (env_after os env w)).
      rewrite (env_after_other os env w "GCP_PROJECT") by reflexivity.
      rewrite (env_after_other os env w "PROJECT") by reflexivity.
      rewrite env_after_project.
      env_cases env; reflexivity.
    + rewrite (env_after_location os (env_after os env w)).
      unfold environ_get_default.
      rewrite (env_after_other os env w "GCP_LOCATION") by reflexivity.
      rewrite (env_after_other os env w "LOCATION") by reflexivity.
      rewrite env_after_location. unfold environ_get_default.
      env_cases env; reflexivity.
  - rewrite !env_after_other by assumption. reflexivity.
Qed.

(** X11: when neither GOOGLE_CLOUD_LOCATION nor GCP_LOCATION holds a
    non-empty value and LOCATION is not set at all, the configuration
    block sets GOOGLE_CLOUD_LOCATION to "us-central1". *)
Theorem location_defaults_to_us_central1
    (os : os_path) (env : environ) (w : world) :
  truthy_str (env "GOOGLE_CLOUD_LOCATION") = false ->
  truthy_str (env "GCP_LOCATION") = false ->
  env "LOCATION" = None ->
  env_after os env w "GOOGLE_CLOUD_LOCATION" = Some "us-central1".
Proof.
  intros H1 H2 H3. rewrite env_after_location.
  unfold or_else, environ_get_default. rewrite H1, H2, H3. reflexivity.
Qed.

Lemma location_defaults_to_us_central1_witness :
  env_after (os_with_file "/keys/sa.json") (env_with "GCP_PROJECT" "demo-project") world0
    "GOOGLE_CLOUD_LOCATION"
  = Some "us-central1".
Proof.
  apply (location_defaults_to_us_central1 (os_with_file "/keys/sa.json")
           (env_with "GCP_PROJECT" "demo-project") world0); reflexivity.
Defined.

(** X12: a LOCATION variable that is set but empty defeats the default:
    when GOOGLE_CLOUD_LOCATION and GCP_LOCATION hold no non-empty value
    either, GOOGLE_CLOUD_LOCATION is left as it was and VERTEX_LOCATION is
    the empty string. *)
Theorem empty_LOCATION_defeats_default
    (os : os_path) (env : environ) (w : world) :
  truthy_str (env "GOOGLE_CLOUD_LOCATION") = false ->
  truthy_str (env "GCP_LOCATION") = false ->
  env "LOCATION" = Some "" ->
  env_after os env w "GOOGLE_CLOUD_LOCATION" = env "GOOGLE_CLOUD_LOCATION"
  /\ option_map Chapter02.VERTEX_LOCATION (settings_after os env w) = Some (Some "").
Proof.
  intros H1 H2 H3. split.
  - rewrite env_after_location.
    unfold or_else, environ_get_default. rewrite H1, H2, H3. reflexivity.
  - config_unfold. unfold environ_get_default, environ_set, or_else.
    destruct (path_exists os _); destruct (truthy_str (env "GOOGLE_APPLICATION_CREDENTIALS"));
      cbn; rewrite ?H1, ?H2, ?H3; reflexivity.
Qed.

Lemma empty_LOCATION_defeats_default_witness :
  env_after (os_with_file "/keys/sa.json") (env_with "LOCATION" "") world0
    "GOOGLE_CLOUD_LOCATION" = None
  /\ option_map Chapter02.VERTEX_LOCATION
       (settings_after (os_with_file "/keys/sa.json") (env_with "LOCATION" "") world0)
     = Some (Some "").
Proof.
  apply (empty_LOCATION_defeats_default (os_with_file "/keys/sa.json")
           (env_with "LOCATION" "") world0); reflexivity.
Defined.

(** X13: after the configuration block, GOOGLE_CLOUD_PROJECT holds a
    non-empty value exactly when one of GOOGLE_CLOUD_PROJECT, GCP_PROJECT
    and PROJECT did before; GOOGLE_CLOUD_LOCATION holds one exactly when
    one of GOOGLE_CLOUD_LOCATION, GCP_LOCATION and LOCATION did before or
    LOCATION was not set. *)
Theorem configured_project_and_location
    (os : os_path) (env : environ) (w : world) :
  truthy_str (env_after os env w "GOOGLE_CLOUD_PROJECT")
  = truthy_str (env "GOOGLE_CLOUD_PROJECT") || truthy_str (env "GCP_PROJECT")
    || truthy_str (env "PROJECT")
  /\ truthy_str (env_after os env w "GOOGLE_CLOUD_LOCATION")
     = truthy_str (env "GOOGLE_CLOUD_LOCATION") || truthy_str (env "GCP_LOCATION")
       || truthy_str (env "LOCATION")
       || match env "LOCATION" with None => true | Some _ => false end.
Proof.
  split.
  - rewrite env_after_project. env_cases env; reflexivity.
  - rewrite env_after_location. unfold environ_get_default. env_cases env; reflexivity.
Qed.

Lemma settings_after_eq (os : os_path) (env : environ) (w : world) :
  settings_after os env w
  = Some (Chapter02.mkSettings
            (or_str (env "GOOGLE_APPLICATION_CREDENTIALS")
               (or_str (env "SERVICE_ACCOUNT_KEY_PATH")
                  (path_join os (script_dir os)
                     [".."; ".."; "cred"; "genai-vertex-data-engineering.json"])))
            (or_else (env "GOOGLE_CLOUD_PROJECT")
               (or_else (env "GCP_PROJECT") (env "PROJECT")))
            (or_else (env "GOOGLE_CLOUD_LOCATION")
               (or_else (env "GCP_LOCATION")
                  (environ_get_default env "LOCATION" "us-central1")))).
Proof.
  config_unfold. unfold environ_get_default, environ_set.
  destruct (path_exists os _); destruct (truthy_str (env "GOOGLE_APPLICATION_CREDENTIALS"));
    reflexivity.
Qed.

(** X14: the configuration block never points
    GOOGLE_APPLICATION_CREDENTIALS at a missing file: whenever it changes
    the variable, the key file it looked up exists and the new value is
    that file's absolute path. *)
Theorem credentials_point_to_existing_file
    (os : os_path) (env : environ) (w : world) :
  env_after os env w "GOOGLE_APPLICATION_CREDENTIALS"
    <> env "GOOGLE_APPLICATION_CREDENTIALS" ->
  exists st,
    settings_after os env w = Some st
    /\ path_exists os (Chapter02.service_account_path st) = true
    /\ env_after os env w "GOOGLE_APPLICATION_CREDENTIALS"
       = Some (path_abspath os (Chapter02.service_account_path st)).
Proof.
  intros H. rewrite settings_after_eq. eexists. split; [reflexivity | ].
  cbn [Chapter02.service_account_path].
  rewrite env_after_credentials in H |- *.
  destruct (path_exists os _); [ | now elim H].
  destruct (truthy_str (env "GOOGLE_APPLICATION_CREDENTIALS")); [now elim H | ].
  split; reflexivity.
Qed.

Lemma credentials_point_to_existing_file_witness :
  exists st,
    settings_after (os_with_file "/keys/sa.json")
      (env_with "SERVICE_ACCOUNT_KEY_PATH" "/keys/sa.json") world0 = Some st
    /\ path_exists (os_with_file "/keys/sa.json") (Chapter02.service_account_path st) = true
    /\ env_after (os_with_file "/keys/sa.json")
         (env_with "SERVICE_ACCOUNT_KEY_PATH" "/keys/sa.json") world0
         "GOOGLE_APPLICATION_CREDENTIALS"
       = Some (path_abspath (os_with_file "/keys/sa.json") (Chapter02.service_account_path st)).
Proof.
  apply (credentials_point_to_existing_file (os_with_file "/keys/sa.json")
           (env_with "SERVICE_ACCOUNT_KEY_PATH" "/keys/sa.json") world0).
  discriminate.
Defined.

(** X15: the configuration block always completes, and the names it binds
    agree with the environment it leaves: GOOGLE_CLOUD_PROJECT is
    VERTEX_PROJECT and GOOGLE_CLOUD_LOCATION is VERTEX_LOCATION whenever
    these are non-empty, and the variables are untouched otherwise. *)
Theorem settings_agree_with_environment
    (os : os_path) (env : environ) (w : world) :
  exists st,
    settings_after os env w = Some st
    /\ env_after os env w "GOOGLE_CLOUD_PROJECT"
       = or_else (Chapter02.VERTEX_PROJECT st) (env "GOOGLE_CLOUD_PROJECT")
    /\ env_after os env w "GOOGLE_CLOUD_LOCATION"
       = or_else (Chapter02.VERTEX_LOCATION st) (env "GOOGLE_CLOUD_LOCATION").
Proof.
  rewrite settings_after_eq. eexists. split; [reflexivity | ].
  cbn [Chapter02.VERTEX_PROJECT Chapter02.VERTEX_LOCATION].
  rewrite env_after_project, env_after_location. unfold environ_get_default.
  split; env_cases env; reflexivity.
Qed.
